(** * E-commerce backend: product queries and order pricing

    A shallow embedding of [main.py]: the request handlers [list_products],
    [get_product] and [create_order], written as functions over an explicit
    store, with Python's exceptions as a [result] type.

    Numbers are the interpreter's: a Python [float] is an IEEE 754 binary64
    value (Rocq's primitive [float]), a Python [int] is a [Z].  Text is a
    [string] of one-byte characters; letters fold by ASCII case. *)

From Stdlib Require Import ZArith Floats Ascii String.
From stdpp Require Import base option list strings gmap.

Set Warnings "-inexact-float,-register-all".
Local Open Scope Z_scope.

(** ** Python numerics *)

(** Quotient of [a] by [b > 0] rounded to the nearest integer, ties to the
    even one. *)
Definition div_half_even (a b : Z) : Z :=
  let q := a / b in
  let r := a mod b in
  match 2 * r ?= b with
  | Lt => q
  | Gt => q + 1
  | Eq => if Z.even q then q else q + 1
  end.

(** The magnitude [m * 2^e], in hundredths, rounded half to even. *)
Definition cents_of (m : positive) (e : Z) : Z :=
  if 0 <=? e then Z.pos m * 100 * 2 ^ e
  else div_half_even (Z.pos m * 100) (2 ^ (- e)).

(** [round(x, 2)] on a float: the exact value of [x] is rounded to two
    decimals, ties to even, and the decimal result is converted back to the
    nearest float.  Infinities and NaN round to themselves; the sign of a
    zero result is the sign of [x]. *)
Definition py_round2 (x : float) : float :=
  match Prim2SF x with
  | S754_finite s m e =>
      match cents_of m e with
      | Z.pos n =>
          SF2Prim (SFdiv prec emax (S754_finite s n 0) (S754_finite false 100 0))
      | _ => SF2Prim (S754_zero s)
      end
  | _ => x
  end.

(** Exceptions a handler can end with.  [HTTPException] is the only one the
    handlers raise themselves; the others come from the builtins and from the
    schema. *)
Inductive exn :=
| HTTPException (status_code : Z) (detail : string)
| TypeError
| ValueError
| OverflowError
| KeyError
| ValidationError.

Definition StoreUnavailable : exn := HTTPException 500 "Database not configured".
Definition InvalidIdentifier : exn := HTTPException 400 "Invalid product id".
Definition NotFound : exn := HTTPException 404 "Product not found".

Inductive result (A : Type) :=
| Ok (a : A)
| Raise (e : exn).
Arguments Ok {A} a.
Arguments Raise {A} e.

#[global] Instance result_ret : MRet result := @Ok.
#[global] Instance result_bind : MBind result :=
  fun A B f m => match m with Ok a => f a | Raise e => Raise e end.

(** [float(n)] for an int: the nearest float, ties to even; an int beyond the
    float range raises [OverflowError]. *)
Definition float_of_int (n : Z) : result float :=
  match binary_normalize prec emax n 0 false with
  | S754_infinity _ => Raise OverflowError
  | sf => Ok (SF2Prim sf)
  end.

(** [int(x)] for a float: truncation towards zero. *)
Definition int_of_float (x : float) : result Z :=
  match Prim2SF x with
  | S754_nan => Raise ValueError
  | S754_infinity _ => Raise OverflowError
  | S754_zero _ => Ok 0
  | S754_finite s m e =>
      let a := if 0 <=? e then Z.pos m * 2 ^ e else Z.pos m / 2 ^ (- e) in
      Ok (if s then - a else a)
  end.

(** [x * n] with a float on the left and an int on the right: the int is
    converted first. *)
Definition mul_float_int (x : float) (n : Z) : result float :=
  y ← float_of_int n; Ok (x * y)%float.

(** ** Data *)

(** JSON values, as the request body and the stored documents hold them. *)
Inductive json :=
| JNull
| JBool (b : bool)
| JInt (n : Z)
| JFloat (x : float)
| JStr (s : string)
| JArr (xs : list json)
| JObj (kvs : list (string * json)).

(** [d.get(k, default)] *)
Definition get {V} (d : gmap string V) (k : string) (dflt : V) : V :=
  default dflt (d !! k).

(** The body of [POST /api/orders]. *)
Record CreateOrderRequest := {
  payload_items : list (gmap string json);
  payload_customer_name : string;
  payload_customer_email : string;
  payload_customer_address : string;
}.

Record OrderItem := {
  product_id : string;
  title : string;
  price : float;
  quantity : Z;
  image : json;
}.

Record Order := {
  items : list OrderItem;
  subtotal : float;
  shipping : float;
  taxes : float;
  total : float;
  customer_name : string;
  customer_email : string;
  customer_address : string;
}.

(** [{"order_id": order_id, "total": total}] *)
Record OrderResponse := {
  response_order_id : string;
  response_total : float;
}.

Section Documents.

(** Identifiers are the store's, an opaque type. *)
Context {oid : Type}.

(** A stored value: an identifier or a plain value. *)
Inductive bson :=
| BId (o : oid)
| BVal (v : json).

(** [db]: the collections the handlers use.  A handler receives
    [option store]; [None] is [db is None]. *)
Record store := {
  product : list (gmap string bson);
  order : list (oid * Order);
}.

(** One entry of the list [list_products] returns. *)
Record ProductView := {
  view_id : string;
  view_title : bson;
  view_description : bson;
  view_price : float;
  view_category : bson;
  view_image : bson;
  view_rating : float;
  view_in_stock : bool;
}.

End Documents.

Arguments bson oid : clear implicits.
Arguments store oid : clear implicits.
Arguments ProductView oid : clear implicits.

(** The filter documents [list_products] builds: a field compared with a
    string, a field matched against a regular expression, and [$or]. *)
Inductive clause :=
| FieldEq (field value : string)
| FieldRegex (field pattern options : string)
| Or (alts : list clause).

(** ** The runtime

    What the handlers take from outside the repository's code: the
    interpreter's conversions from text to numbers ([None] where [float] or
    [int] raise [ValueError]) and its [str] of a value that is not text; the
    identifier type's constructor from text ([None] where [ObjectId(...)]
    raises) and its [str]; and the identifier the store assigns to the next
    document inserted. *)
Class Runtime (oid : Type) := {
  float_of_str : string -> option float;
  int_of_str : string -> option Z;
  repr : json -> string;
  oid_eq_dec :: EqDecision oid;
  ObjectId : string -> option oid;
  str_oid : oid -> string;
  new_oid : store oid -> oid;
}.

Section Model.

Context {oid : Type} {R : Runtime oid}.

(** ** Conversions *)

(** [float(v)] *)
Definition py_float (v : json) : result float :=
  match v with
  | JBool b => Ok (if b then 1 else 0)%float
  | JInt n => float_of_int n
  | JFloat x => Ok x
  | JStr s => match float_of_str s with Some x => Ok x | None => Raise ValueError end
  | JNull | JArr _ | JObj _ => Raise TypeError
  end.

(** [int(v)] *)
Definition py_int (v : json) : result Z :=
  match v with
  | JBool b => Ok (if b then 1 else 0)
  | JInt n => Ok n
  | JFloat x => int_of_float x
  | JStr s => match int_of_str s with Some n => Ok n | None => Raise ValueError end
  | JNull | JArr _ | JObj _ => Raise TypeError
  end.

(** [str(v)] *)
Definition py_str (v : json) : string :=
  match v with
  | JStr s => s
  | _ => repr v
  end.

(** ** Orders *)

(** One term of the subtotal:
    [float(i.get("price", 0)) * int(i.get("quantity", 1))]. *)
Definition line_amount (i : gmap string json) : result float :=
  p ← py_float (get i "price" (JInt 0));
  q ← py_int (get i "quantity" (JInt 1));
  mul_float_int p q.

(** [sum] over the line amounts: the terms are produced and added in order
    onto the running sum, which starts at 0.  (CPython from 3.12 on adds a
    compensation term at the end; on a single term both agree.) *)
Fixpoint py_sum (acc : float) (xs : list (gmap string json)) : result float :=
  match xs with
  | [] => Ok acc
  | i :: xs' => a ← line_amount i; py_sum (acc + a)%float xs'
  end.

Definition compute_subtotal (payload : CreateOrderRequest) : result float :=
  py_sum 0%float (payload_items payload).

Definition compute_shipping (subtotal : float) : float :=
  if (50 <=? subtotal)%float then 0%float else 6.99%float.

Definition compute_taxes (subtotal : float) : float :=
  py_round2 (subtotal * 0.07)%float.

Definition compute_total (subtotal shipping taxes : float) : float :=
  py_round2 (subtotal + shipping + taxes)%float.

(** One entry of the [items] list handed to [Order]. *)
Definition make_item (i : gmap string json) : result OrderItem :=
  let pid := py_str (get i "product_id" (JStr "")) in
  let ttl := py_str (get i "title" (JStr "")) in
  p ← py_float (get i "price" (JInt 0));
  q ← py_int (get i "quantity" (JInt 1));
  Ok {| product_id := pid; title := ttl; price := p; quantity := q;
        image := get i "image" JNull |}.

Fixpoint make_items (xs : list (gmap string json)) : result (list OrderItem) :=
  match xs with
  | [] => Ok []
  | i :: xs' => li ← make_item i; lis ← make_items xs'; Ok (li :: lis)
  end.

(** Modelled from the spec: the [Order] and line-item schemas ([schemas.py])
    are not among the sources.  The data model bounds a line item by
    price >= 0 and quantity >= 1; constructing an [Order] checks them and
    raises a validation error otherwise.  (A NaN price fails the comparison.) *)
Definition item_valid (li : OrderItem) : bool :=
  (0 <=? price li)%float && (1 <=? quantity li).

Definition validate_order (o : Order) : result Order :=
  if forallb item_valid (items o) then Ok o else Raise ValidationError.

(** Modelled from the spec: [create_document] ([database.py]) is not among
    the sources.  The store's insert adds the document to the collection
    under an identifier the store assigns and returns that identifier.  This
    is the insert when it succeeds; an insert that raises is the parameter
    of [create_order_via] below. *)
Definition create_document (st : store oid) (order_doc : Order)
  : store oid * string :=
  let i := new_oid st in
  ({| product := product st; order := order st ++ [(i, order_doc)] |}, str_oid i).

(** The body of [create_order] between the store check and the insert: the
    order document, and the local [total] that the response carries. *)
Definition build_order (payload : CreateOrderRequest) : result (Order * float) :=
  subtotal ← compute_subtotal payload;
  let shipping := compute_shipping subtotal in
  let taxes := compute_taxes subtotal in
  let total := compute_total subtotal shipping taxes in
  its ← make_items (payload_items payload);
  order_doc ← validate_order
    {| items := its;
       subtotal := py_round2 subtotal;
       shipping := py_round2 shipping;
       taxes := taxes;
       total := total;
       customer_name := payload_customer_name payload;
       customer_email := payload_customer_email payload;
       customer_address := payload_customer_address payload |};
  Ok (order_doc, total).

(** [create_order], with the insert of [create_document]: the store after
    the call, and the response or the exception. *)
Definition create_order (db : option (store oid)) (payload : CreateOrderRequest)
  : option (store oid) * result OrderResponse :=
  match db with
  | None => (db, Raise StoreUnavailable)
  | Some st =>
      match build_order payload with
      | Raise e => (db, Raise e)
      | Ok (order_doc, total) =>
          let '(st', order_id) := create_document st order_doc in
          (Some st', Ok {| response_order_id := order_id; response_total := total |})
      end
  end.

(** The order a handler call left in the store: the last document of the
    [order] collection. *)
Definition persisted (db : option (store oid)) : option Order :=
  st ← db; snd <$> last (order st).

(** [create_order] over any insert: [create_document("order", order_doc)]
    answers the new store and the identifier, or raises.  The handler does
    not catch the exception, so it raises with it; a raising insert is taken
    to leave the store as it was. *)
Definition create_order_via
    (insert : store oid -> Order -> result (store oid * string))
    (db : option (store oid)) (payload : CreateOrderRequest)
  : option (store oid) * result OrderResponse :=
  match db with
  | None => (db, Raise StoreUnavailable)
  | Some st =>
      match build_order payload with
      | Raise e => (db, Raise e)
      | Ok (order_doc, total) =>
          match insert st order_doc with
          | Ok (st', order_id) =>
              (Some st',
               Ok {| response_order_id := order_id; response_total := total |})
          | Raise e => (db, Raise e)
          end
      end
  end.

(** ** Product queries *)

(** [if s:] on an optional string: absent and empty are both false. *)
Definition truthy (s : option string) : bool :=
  match s with
  | Some (String _ _) => true
  | _ => false
  end.

(** [filter_dict] as built by [list_products]; the list is the conjunction of
    the dictionary's entries. *)
Definition filter_dict (category q : option string) : list clause :=
  (if truthy category then [FieldEq "category" (default "" category)] else [])
  ++
  (if truthy q then
     let q := default "" q in
     [Or [FieldRegex "title" q "i";
          FieldRegex "description" q "i";
          FieldRegex "category" q "i"]]
   else []).

(** *** Regular expressions

    The store matches a [$regex] pattern as a regular expression, anywhere
    in the text.  The model covers the patterns that are sequences of
    ordinary characters and [.] (any character but a newline), with the
    option [i]; on any other pattern or option it answers [None]. *)
Inductive atom :=
| Chr (c : ascii)
| Dot.

Definition metachar (c : ascii) : bool :=
  existsb (Ascii.eqb c) (list_ascii_of_string "\^$.[]|()?*+{}").

Fixpoint parse_pattern (p : string) : option (list atom) :=
  match p with
  | EmptyString => Some []
  | String c p' =>
      if Ascii.eqb c "." then cons Dot <$> parse_pattern p'
      else if metachar c then None
      else cons (Chr c) <$> parse_pattern p'
  end.

Definition lower (c : ascii) : ascii :=
  let n := nat_of_ascii c in
  if (Nat.leb 65 n && Nat.leb n 90)%bool then ascii_of_nat (n + 32) else c.

Definition atom_match (a : atom) (c : ascii) : bool :=
  match a with
  | Chr x => Ascii.eqb (lower x) (lower c)
  | Dot => negb (Ascii.eqb c "010")
  end.

(** The pattern matches a prefix of [s]. *)
Fixpoint match_here (p : list atom) (s : string) : bool :=
  match p, s with
  | [], _ => true
  | a :: p', String c s' => atom_match a c && match_here p' s'
  | _ :: _, EmptyString => false
  end.

(** The pattern matches somewhere in [s]. *)
Fixpoint search (p : list atom) (s : string) : bool :=
  match_here p s ||
  match s with
  | EmptyString => false
  | String _ s' => search p s'
  end.

Definition regex_compile (pattern options : string) : option (list atom) :=
  if String.eqb options "i" then parse_pattern pattern else None.

(** The text of a field, when the field holds text.  (A field that holds a
    list of texts is not modelled: it matches nothing here.) *)
Definition text_field (d : gmap string (bson oid)) (f : string) : option string :=
  match d !! f with
  | Some (BVal (JStr s)) => Some s
  | _ => None
  end.

Fixpoint clause_matches (d : gmap string (bson oid)) (c : clause) : option bool :=
  match c with
  | FieldEq f v =>
      Some (match text_field d f with Some s => String.eqb s v | None => false end)
  | FieldRegex f p o =>
      r ← regex_compile p o;
      Some (match text_field d f with Some s => search r s | None => false end)
  | Or alts =>
      (fix any (cs : list clause) : option bool :=
         match cs with
         | [] => Some false
         | c :: cs' => b ← clause_matches d c; bs ← any cs'; Some (b || bs)
         end) alts
  end.

(** A document is selected when it matches every entry of the filter. *)
Fixpoint select (query : list clause) (d : gmap string (bson oid)) : option bool :=
  match query with
  | [] => Some true
  | c :: cs => b ← clause_matches d c; bs ← select cs d; Some (b && bs)
  end.

(** The selected documents of a collection, in the collection's order. *)
Fixpoint find (query : list clause) (coll : list (gmap string (bson oid)))
  : option (list (gmap string (bson oid))) :=
  match coll with
  | [] => Some []
  | d :: ds =>
      b ← select query d; rest ← find query ds;
      Some (if b : bool then d :: rest else rest)
  end.

(** Modelled from the spec: [get_documents] ([database.py]) is not among the
    sources.  It returns the documents of the collection that match the
    filter, in the store's order, capped at [limit] records. *)
Definition get_documents (coll : list (gmap string (bson oid)))
    (query : list clause) (limit : Z) : option (list (gmap string (bson oid))) :=
  take (Z.to_nat limit) <$> find query coll.

(** [str], [float] and [bool] of a stored value. *)
Definition bson_str (v : bson oid) : string :=
  match v with
  | BId o => str_oid o
  | BVal j => py_str j
  end.

Definition bson_float (v : bson oid) : result float :=
  match v with
  | BId _ => Raise TypeError
  | BVal j => py_float j
  end.

Definition bson_bool (v : bson oid) : bool :=
  match v with
  | BId _ => true
  | BVal JNull => false
  | BVal (JBool b) => b
  | BVal (JInt n) => negb (n =? 0)
  | BVal (JFloat x) => negb (x =? 0)%float
  | BVal (JStr s) => negb (String.eqb s "")
  | BVal (JArr xs) => match xs with [] => false | _ => true end
  | BVal (JObj kvs) => match kvs with [] => false | _ => true end
  end.

(** The dictionary [list_products] builds for one document. *)
Definition product_view (d : gmap string (bson oid)) : result (ProductView oid) :=
  p ← bson_float (get d "price" (BVal (JInt 0)));
  r ← bson_float (get d "rating" (BVal (JFloat 4.5)));
  Ok {| view_id := bson_str (get d "_id" (BVal JNull));
        view_title := get d "title" (BVal JNull);
        view_description := get d "description" (BVal JNull);
        view_price := p;
        view_category := get d "category" (BVal (JStr "Other"));
        view_image := get d "image" (BVal JNull);
        view_rating := r;
        view_in_stock := bson_bool (get d "in_stock" (BVal (JBool true))) |}.

Fixpoint product_views (docs : list (gmap string (bson oid)))
  : result (list (ProductView oid)) :=
  match docs with
  | [] => Ok []
  | d :: ds => v ← product_view d; vs ← product_views ds; Ok (v :: vs)
  end.

(** [list_products]; the outer [None] is a pattern outside the modelled
    regular expressions. *)
Definition list_products (db : option (store oid)) (category q : option string)
    (limit : Z) : option (result (list (ProductView oid))) :=
  match db with
  | None => Some (Raise StoreUnavailable)
  | Some st =>
      docs ← get_documents (product st) (filter_dict category q) limit;
      Some (product_views docs)
  end.

(** [find_one({"_id": oid})]: the first document of the collection whose
    identifier is [oid]. *)
Definition has_id (o : oid) (d : gmap string (bson oid)) : bool :=
  match d !! "_id" with
  | Some (BId o') => bool_decide (o' = o)
  | _ => false
  end.

Definition find_one (coll : list (gmap string (bson oid))) (o : oid)
  : option (gmap string (bson oid)) :=
  List.find (has_id o) coll.

Definition get_product (db : option (store oid)) (product_id : string)
  : result (gmap string (bson oid)) :=
  match db with
  | None => Raise StoreUnavailable
  | Some st =>
      match ObjectId product_id with
      | None => Raise InvalidIdentifier
      | Some o =>
          match find_one (product st) o with
          | None => Raise NotFound
          | Some doc =>
              if Nat.eqb (size doc) 0 then Raise NotFound
              else
                match doc !! "_id" with
                | Some v => Ok (<["id" := BVal (JStr (bson_str v))]> (delete "_id" doc))
                | None => Raise KeyError
                end
          end
      end
  end.

End Model.

(** ** Specification predicates *)

Section Specification.

Context {oid : Type} {R : Runtime oid}.

(** The exceptions the conversions of a price or a quantity raise. *)
Definition coercion_error (e : exn) : Prop :=
  e = TypeError \/ e = ValueError \/ e = OverflowError.

(** A stored line item is the coercion of the raw one: price and quantity
    converted, identifier and title as text, each with its default where the
    raw item has no such key. *)
Definition coerced (i : gmap string json) (li : OrderItem) : Prop :=
  py_float (get i "price" (JInt 0)) = Ok (price li) /\
  py_int (get i "quantity" (JInt 1)) = Ok (quantity li) /\
  product_id li = py_str (get i "product_id" (JStr "")) /\
  title li = py_str (get i "title" (JStr "")) /\
  (i !! "price" = None -> price li = 0%float) /\
  (i !! "quantity" = None -> quantity li = 1) /\
  (i !! "product_id" = None -> product_id li = "") /\
  (i !! "title" = None -> title li = "").

(** Case-insensitive containment, as the specification words it: [q] occurs
    in [s] as a substring once both are folded to lower case. *)
Fixpoint lower_str (s : string) : string :=
  match s with
  | EmptyString => EmptyString
  | String c s' => String (lower c) (lower_str s')
  end.

Definition ci_contains (q s : string) : Prop :=
  exists pre suf, lower_str s = pre +:+ lower_str q +:+ suf.

(** The field [f] of [d] holds text that contains [q]. *)
Definition field_contains (d : gmap string (bson oid)) (f q : string) : Prop :=
  exists s, text_field d f = Some s /\ ci_contains q s.

(** The product [d] meets the category condition, when a category is given,
    and the free-text condition on [q]. *)
Definition text_selected (category : option string) (q : string)
    (d : gmap string (bson oid)) : Prop :=
  (truthy category = true -> text_field d "category" = category) /\
  (field_contains d "title" q \/ field_contains d "description" q \/
   field_contains d "category" q).

(** A pattern without regular-expression metacharacters, and the atoms it
    parses to. *)
Fixpoint literal (q : string) : bool :=
  match q with
  | EmptyString => true
  | String c q' => negb (metachar c) && literal q'
  end.

Fixpoint literal_atoms (q : string) : list atom :=
  match q with
  | EmptyString => []
  | String c q' => Chr c :: literal_atoms q'
  end.

End Specification.

(** ** Example data

    The closed examples run the handlers on a small runtime: identifiers are
    their own text, 24 characters long, and the store assigns one fixed
    identifier.  No example converts text to a number or prints a value that
    is not text, so those conversions are left empty here. *)

#[global] Instance demo_runtime : Runtime string := {|
  float_of_str := fun _ => None;
  int_of_str := fun _ => None;
  repr := fun _ => EmptyString;
  oid_eq_dec := _;
  ObjectId := fun s => if Nat.eqb (String.length s) 24 then Some s else None;
  str_oid := fun o => o;
  new_oid := fun _ => "65f0c0ffee00000000000001";
|}.

Definition empty_store : store string := {| product := []; order := [] |}.

(** A request with the given raw items. *)
Definition order_for (raw : list (gmap string json)) : CreateOrderRequest :=
  {| payload_items := raw;
     payload_customer_name := "Ada";
     payload_customer_email := "ada@example.org";
     payload_customer_address := "1 Main Street" |}.

(** The store after the one order [o] was created in [empty_store], and the
    response to that request. *)
Definition store_with (o : Order) : option (store string) :=
  Some {| product := []; order := [("65f0c0ffee00000000000001", o)] |}.

Definition response_with (t : float) : OrderResponse :=
  {| response_order_id := "65f0c0ffee00000000000001"; response_total := t |}.

(** The order stored for one raw item that names a price and a quantity
    only. *)
Definition order_of (p : float) (n : Z) (sub ship tax tot : float) : Order :=
  {| items := [{| product_id := ""; title := ""; price := p; quantity := n;
                  image := JNull |}];
     subtotal := sub; shipping := ship; taxes := tax; total := tot;
     customer_name := "Ada"; customer_email := "ada@example.org";
     customer_address := "1 Main Street" |}.

(** [{"price": 30, "quantity": 2}]: subtotal 60, free shipping. *)
Definition two_at_30 : gmap string json :=
  <["price" := JInt 30]> (<["quantity" := JInt 2]> ∅).

Definition order_two_at_30 : Order := order_of 30 2 60 0 4.2 64.2.

(** [{"price": 10, "quantity": 1}]: subtotal 10, flat shipping. *)
Definition one_at_10 : gmap string json :=
  <["price" := JInt 10]> (<["quantity" := JInt 1]> ∅).

Definition order_one_at_10 : Order := order_of 10 1 10 6.99 0.7 17.69.

(** No items: subtotal 0, flat shipping. *)
Definition order_empty : Order :=
  {| items := [];
     subtotal := 0; shipping := 6.99; taxes := 0; total := 6.99;
     customer_name := "Ada"; customer_email := "ada@example.org";
     customer_address := "1 Main Street" |}.

(** [{"price": 0.625}]: the subtotal lies exactly between two cents. *)
Definition one_at_0625 : gmap string json := <["price" := JFloat 0.625]> ∅.

Definition order_one_at_0625 : Order := order_of 0.625 1 0.62 6.99 0.04 7.66.

(** [{"price": null}]: a price that [float] rejects. *)
Definition null_price : gmap string json := <["price" := JNull]> ∅.

(** A stored product. *)
Definition chair : gmap string (bson string) :=
  <["_id" := BId "65f0c0ffee0000000000000a"]>
  (<["title" := BVal (JStr "Ergonomic Office Chair")]>
  (<["description" := BVal (JStr "Lumbar support, breathable mesh")]>
  (<["category" := BVal (JStr "Home")]>
  (<["price" := BVal (JFloat 129)]> ∅)))).

(** ** Seeding and diagnostics *)

(** One dictionary of the demo catalog. *)
Definition sample (ttl desc : string) (p : float) (cat img : string)
    (rating : float) : gmap string json :=
  <["title" := JStr ttl]>
  (<["description" := JStr desc]>
  (<["price" := JFloat p]>
  (<["category" := JStr cat]>
  (<["image" := JStr img]>
  (<["rating" := JFloat rating]>
  (<["in_stock" := JBool true]> ∅)))))).

(** [samples] of [seed_products]. *)
Definition samples : list (gmap string json) :=
  [ sample "Wireless Noise-Cancelling Headphones"
      "Immersive sound with active noise cancellation and 30h battery."
      199.99 "Electronics"
      "https://images.unsplash.com/photo-1518443895914-6df8ccca9fd8?q=80&w=1200&auto=format&fit=crop"
      4.6;
    sample "Ergonomic Office Chair"
      "Lumbar support, breathable mesh, adjustable height and tilt."
      129.0 "Home"
      "https://images.unsplash.com/photo-1582582429416-2f6b24fd4a62?q=80&w=1200&auto=format&fit=crop"
      4.4;
    sample "Stainless Steel Water Bottle 1L"
      "Keeps drinks cold 24h or hot 12h, leak-proof design."
      24.99 "Outdoors"
      "https://images.unsplash.com/photo-1519681393784-d120267933ba?q=80&w=1200&auto=format&fit=crop"
      4.8;
    sample "Smart LED Light Bulb (4-pack)"
      "16M colors, app control, works with Alexa and Google."
      39.99 "Electronics"
      "https://images.unsplash.com/photo-1482192596544-9eb780fc7f66?q=80&w=1200&auto=format&fit=crop"
      4.3 ].

Section Seeding.

Context {oid : Type}.

(** [create_document("product", s)]: the store's insert of a product, which
    answers the new store and the identifier, or raises and leaves the store
    as it was. *)
Variable create_product :
  store oid -> gmap string json -> result (store oid * string).

(** The loop of [seed_products]: an insert that raises is passed over. *)
Fixpoint seed_loop (st : store oid) (inserted : Z) (ss : list (gmap string json))
  : store oid * Z :=
  match ss with
  | [] => (st, inserted)
  | s :: ss' =>
      match create_product st s with
      | Ok (st', _) => seed_loop st' (inserted + 1) ss'
      | Raise _ => seed_loop st inserted ss'
      end
  end.

(** [seed_products]: the store after the call, and [inserted] or the
    exception. *)
Definition seed_products (db : option (store oid))
  : option (store oid) * result Z :=
  match db with
  | None => (db, Raise StoreUnavailable)
  | Some st => let '(st', inserted) := seed_loop st 0 samples in (Some st', Ok inserted)
  end.

End Seeding.

(** Modelled from the spec: [create_document] ([database.py]) is not among
    the sources.  For a product, as for an order, the insert adds the
    document to the collection under the identifier the store assigns, kept
    in the document's [_id], and returns that identifier. *)
Definition insert_product {oid : Type} {R : Runtime oid} (st : store oid)
    (s : gmap string json) : result (store oid * string) :=
  let i := new_oid st in
  Ok ({| product := product st ++ [<["_id" := BId i]> (BVal <$> s)];
         order := order st |}, str_oid i).

(** What [test_database] reads of [db]: its [name] attribute, when it has
    one, and the answer of [list_collection_names()], the names or the
    message of the exception raised. *)
Record Database := {
  db_name : option string;
  list_collection_names : string + list string;
}.

(** [test_database]: the response dictionary, given [db] and the two
    environment variables. *)
Definition test_database (db : option Database)
    (DATABASE_URL DATABASE_NAME : option string) : gmap string json :=
  let response : gmap string json :=
    <["backend" := JStr "✅ Running"]>
    (<["database" := JStr "❌ Not Available"]>
    (<["database_url" := JNull]>
    (<["database_name" := JNull]>
    (<["connection_status" := JStr "Not Connected"]>
    (<["collections" := JArr []]> ∅))))) in
  let response :=
    match db with
    | Some h =>
        let response := <["database" := JStr "✅ Available"]> response in
        let response := <["database_url" := JStr "✅ Configured"]> response in
        let response :=
          <["database_name" := JStr (default "✅ Connected" (db_name h))]> response in
        let response := <["connection_status" := JStr "Connected"]> response in
        match list_collection_names h with
        | inr collections =>
            let response :=
              <["collections" := JArr (JStr <$> take 10 collections)]> response in
            <["database" := JStr "✅ Connected & Working"]> response
        | inl e =>
            <["database" :=
                JStr ("⚠️  Connected but Error: " +:+ String.substring 0 50 e)]>
              response
        end
    | None => <["database" := JStr "⚠️  Available but not initialized"]> response
    end in
  let response :=
    <["database_url" :=
        JStr (if truthy DATABASE_URL then "✅ Set" else "❌ Not Set")]> response in
  <["database_name" :=
      JStr (if truthy DATABASE_NAME then "✅ Set" else "❌ Not Set")]> response.

(** ** Properties of order creation *)

Section OrderProperties.

Context {oid : Type} {R : Runtime oid}.

Lemma bind_Ok {A B} (m : result A) (f : A -> result B) (b : B) :
  m ≫= f = Ok b -> exists a, m = Ok a /\ f a = Ok b.
Proof. destruct m as [a|e]; simpl; [eauto | discriminate]. Qed.

Lemma bind_Raise {A B} (m : result A) (f : A -> result B) (e : exn) :
  m ≫= f = Raise e -> m = Raise e \/ exists a, m = Ok a /\ f a = Raise e.
Proof. destruct m as [a|e']; simpl; [eauto | intros [= ->]; auto]. Qed.

Ltac inv_bind H :=
  let a := fresh "a" in
  let Ha := fresh "H" a in
  apply bind_Ok in H; destruct H as (a & Ha & H).

(** Two floats that compare different are different values. *)
Lemma float_neqb (a b : float) :
  (a =? a)%float = true -> (a =? b)%float = false -> a <> b.
Proof. intros Ha Hab ->. congruence. Qed.

(** Rounding leaves both shipping rates as they are. *)
Lemma round_shipping (s : float) :
  py_round2 (compute_shipping s) = compute_shipping s.
Proof.
  unfold compute_shipping.
  destruct (50 <=? s)%float; vm_compute; reflexivity.
Qed.

Lemma validate_order_Ok (o o' : Order) :
  validate_order o = Ok o' -> o' = o /\ forallb item_valid (items o) = true.
Proof.
  unfold validate_order.
  destruct (forallb item_valid (items o)); [intros [= <-]; auto | discriminate].
Qed.

(** What a successful [build_order] computed. *)
Lemma build_order_Ok (payload : CreateOrderRequest) (o : Order) (t : float) :
  build_order payload = Ok (o, t) ->
  exists s its,
    compute_subtotal payload = Ok s /\
    make_items (payload_items payload) = Ok its /\
    forallb item_valid its = true /\
    t = compute_total s (compute_shipping s) (compute_taxes s) /\
    o = {| items := its;
           subtotal := py_round2 s;
           shipping := py_round2 (compute_shipping s);
           taxes := compute_taxes s;
           total := t;
           customer_name := payload_customer_name payload;
           customer_email := payload_customer_email payload;
           customer_address := payload_customer_address payload |}.
Proof.
  unfold build_order. intros H.
  inv_bind H. rename a into s.
  inv_bind H. rename a into its.
  inv_bind H. rename a into o'.
  injection H as -> <-.
  apply validate_order_Ok in Ha1 as [-> Hv].
  exists s, its. auto.
Qed.

(** What a successful [create_order] did: the store was configured, the
    order was built, and the store gained exactly that order. *)
Lemma create_order_Ok (db db' : option (store oid)) (payload : CreateOrderRequest)
    (resp : OrderResponse) :
  create_order db payload = (db', Ok resp) ->
  exists st o,
    db = Some st /\
    build_order payload = Ok (o, response_total resp) /\
    db' = Some {| product := product st;
                  order := order st ++ [(new_oid st, o)] |} /\
    response_order_id resp = str_oid (new_oid st) /\
    persisted db' = Some o.
Proof.
  unfold create_order. destruct db as [st|]; [|discriminate].
  destruct (build_order payload) as [[o t]|e] eqn:Hb; [|discriminate].
  simpl. intros [= <- <-]. exists st, o. simpl.
  repeat split; try reflexivity.
  unfold persisted. simpl. rewrite last_snoc. reflexivity.
Qed.

(** *** The errors of a rejected order *)

Lemma float_of_int_Raise (n : Z) (e : exn) :
  float_of_int n = Raise e -> coercion_error e.
Proof.
  unfold float_of_int, coercion_error.
  destruct (binary_normalize prec emax n 0 false); intros [= <-]; auto.
Qed.

Lemma int_of_float_Raise (x : float) (e : exn) :
  int_of_float x = Raise e -> coercion_error e.
Proof.
  unfold int_of_float, coercion_error.
  destruct (Prim2SF x); intros [= <-]; auto.
Qed.

Lemma py_float_Raise (v : json) (e : exn) :
  py_float v = Raise e -> coercion_error e.
Proof.
  destruct v; simpl; try (intros [= <-]; unfold coercion_error; auto; fail).
  - apply float_of_int_Raise.
  - destruct (float_of_str s); intros [= <-]. unfold coercion_error; auto.
Qed.

Lemma py_int_Raise (v : json) (e : exn) :
  py_int v = Raise e -> coercion_error e.
Proof.
  destruct v; simpl; try (intros [= <-]; unfold coercion_error; auto; fail).
  - apply int_of_float_Raise.
  - destruct (int_of_str s); intros [= <-]. unfold coercion_error; auto.
Qed.

Lemma line_amount_Raise (i : gmap string json) (e : exn) :
  line_amount i = Raise e -> coercion_error e.
Proof.
  unfold line_amount, mul_float_int. intros H.
  apply bind_Raise in H as [H | (p & _ & H)]; [eauto using py_float_Raise|].
  apply bind_Raise in H as [H | (q & _ & H)]; [eauto using py_int_Raise|].
  apply bind_Raise in H as [H | (y & _ & H)]; [eauto using float_of_int_Raise|].
  discriminate.
Qed.

Lemma py_sum_Raise (xs : list (gmap string json)) (acc : float) (e : exn) :
  py_sum acc xs = Raise e -> coercion_error e.
Proof.
  revert acc. induction xs as [|i xs IH]; simpl; intros acc H; [discriminate|].
  apply bind_Raise in H as [H | (a & _ & H)]; eauto using line_amount_Raise.
Qed.

Lemma make_item_Raise (i : gmap string json) (e : exn) :
  make_item i = Raise e -> coercion_error e.
Proof.
  unfold make_item. intros H.
  apply bind_Raise in H as [H | (p & _ & H)]; [eauto using py_float_Raise|].
  apply bind_Raise in H as [H | (q & _ & H)]; [eauto using py_int_Raise|].
  discriminate.
Qed.

Lemma make_items_Raise (xs : list (gmap string json)) (e : exn) :
  make_items xs = Raise e -> coercion_error e.
Proof.
  induction xs as [|i xs IH]; simpl; intros H; [discriminate|].
  apply bind_Raise in H as [H | (li & _ & H)]; [eauto using make_item_Raise|].
  apply bind_Raise in H as [H | (lis & _ & H)]; [eauto | discriminate].
Qed.

Lemma build_order_Raise (payload : CreateOrderRequest) (e : exn) :
  build_order payload = Raise e -> coercion_error e \/ e = ValidationError.
Proof.
  unfold build_order, compute_subtotal. intros H.
  apply bind_Raise in H as [H | (s & _ & H)]; [eauto using py_sum_Raise|].
  apply bind_Raise in H as [H | (its & _ & H)]; [eauto using make_items_Raise|].
  apply bind_Raise in H as [H | (o & _ & H)]; [|discriminate].
  unfold validate_order in H.
  destruct (forallb _ _); [discriminate | injection H as <-; auto].
Qed.

(** *** The stored line items *)

Lemma make_item_coerced (i : gmap string json) (li : OrderItem) :
  make_item i = Ok li -> coerced i li.
Proof.
  unfold make_item. intros H.
  inv_bind H. rename a into p. inv_bind H. rename a into q.
  injection H as <-. unfold coerced; simpl.
  repeat split; auto; unfold get in *; intros Hk; rewrite Hk in *; simpl in *;
    try reflexivity.
  - vm_compute in Ha. congruence.
  - congruence.
Qed.

Lemma make_items_coerced (xs : list (gmap string json)) (its : list OrderItem) :
  make_items xs = Ok its -> Forall2 coerced xs its.
Proof.
  revert its. induction xs as [|i xs IH]; simpl; intros its H.
  - injection H as <-. constructor.
  - inv_bind H. rename a into li. inv_bind H. rename a into lis.
    injection H as <-. constructor; auto using make_item_coerced.
Qed.

Lemma forallb_item_valid (its : list OrderItem) :
  forallb item_valid its = true ->
  Forall (fun li => (0 <=? price li)%float = true /\ 1 <= quantity li) its.
Proof.
  rewrite forallb_forall, Forall_forall. intros H li Hli.
  apply list_elem_of_In in Hli. apply H in Hli.
  unfold item_valid in Hli. apply andb_true_iff in Hli as [Hp Hq].
  split; [exact Hp | lia].
Qed.

(** *** Totals *)

(** C1 (as amended): on every successful order submission the total, stored
    and returned, is [round(subtotal + shipping + taxes, 2)] over the raw
    subtotal, the computed shipping and the computed taxes; the stored
    subtotal is [round(subtotal, 2)], the stored shipping is the computed
    shipping and the stored taxes are the computed taxes.  The rounding is of
    the whole sum: the total is not stated to be the sum of the stored
    fields. *)
Theorem create_order_total_rounds_sum (db db' : option (store oid))
    (payload : CreateOrderRequest) (resp : OrderResponse) :
  create_order db payload = (db', Ok resp) ->
  exists s o,
    compute_subtotal payload = Ok s /\
    persisted db' = Some o /\
    subtotal o = py_round2 s /\
    shipping o = compute_shipping s /\
    taxes o = compute_taxes s /\
    total o = py_round2 (s + shipping o + taxes o)%float /\
    response_total resp = py_round2 (s + shipping o + taxes o)%float.
Proof.
  intros H. apply create_order_Ok in H as (st & o & -> & Hb & -> & _ & Hp).
  apply build_order_Ok in Hb as (s & its & Hs & _ & _ & Ht & ->).
  exists s. eexists. split; [exact Hs|]. split; [exact Hp|]. simpl.
  rewrite round_shipping, Ht. unfold compute_total. auto.
Qed.

(** C2: on every successful order submission the shipping, as computed and
    as stored, is 0 exactly when the subtotal is at least 50, and is 6.99
    otherwise. *)
Theorem create_order_shipping (db db' : option (store oid))
    (payload : CreateOrderRequest) (resp : OrderResponse) :
  create_order db payload = (db', Ok resp) ->
  exists s o,
    compute_subtotal payload = Ok s /\
    persisted db' = Some o /\
    (shipping o = 0%float <-> (50 <=? s)%float = true) /\
    ((50 <=? s)%float = false -> shipping o = 6.99%float).
Proof.
  intros H. apply create_order_Ok in H as (st & o & -> & Hb & -> & _ & Hp).
  apply build_order_Ok in Hb as (s & its & Hs & _ & _ & _ & ->).
  exists s. eexists. split; [exact Hs|]. split; [exact Hp|].
  cbn [shipping]. rewrite round_shipping. unfold compute_shipping.
  destruct (50 <=? s)%float.
  - split; [split; reflexivity | discriminate].
  - split; [|reflexivity]. split; [|discriminate].
    intros E. exfalso. revert E. apply float_neqb; reflexivity.
Qed.

(** C3: on every successful order submission, whatever the subtotal (so for
    every subtotal >= 0), the taxes are [round(subtotal * 0.07, 2)]. *)
Theorem create_order_taxes (db db' : option (store oid))
    (payload : CreateOrderRequest) (resp : OrderResponse) :
  create_order db payload = (db', Ok resp) ->
  exists s o,
    compute_subtotal payload = Ok s /\
    persisted db' = Some o /\
    taxes o = py_round2 (s * 0.07)%float.
Proof.
  intros H. apply create_order_Ok in H as (st & o & -> & Hb & -> & _ & Hp).
  apply build_order_Ok in Hb as (s & its & Hs & _ & _ & _ & ->).
  exists s. eexists. split; [exact Hs|]. split; [exact Hp|]. reflexivity.
Qed.

(** C10: on every successful order creation the total in the response is
    the [total] field of the order document that was stored. *)
Theorem create_order_response_total (db db' : option (store oid))
    (payload : CreateOrderRequest) (resp : OrderResponse) :
  create_order db payload = (db', Ok resp) ->
  exists o, persisted db' = Some o /\ response_total resp = total o.
Proof.
  intros H. apply create_order_Ok in H as (st & o & -> & Hb & -> & _ & Hp).
  apply build_order_Ok in Hb as (s & its & _ & _ & _ & _ & ->).
  eexists. split; [exact Hp|]. reflexivity.
Qed.

(** C8: every line item stored by an accepted order has price >= 0 and
    quantity >= 1. *)
Theorem create_order_item_bounds (db db' : option (store oid))
    (payload : CreateOrderRequest) (resp : OrderResponse) :
  create_order db payload = (db', Ok resp) ->
  exists o,
    persisted db' = Some o /\
    Forall (fun li => (0 <=? price li)%float = true /\ 1 <= quantity li) (items o).
Proof.
  intros H. apply create_order_Ok in H as (st & o & -> & Hb & -> & _ & Hp).
  apply build_order_Ok in Hb as (s & its & _ & _ & Hv & _ & ->).
  eexists. split; [exact Hp|]. simpl. apply forallb_item_valid, Hv.
Qed.

(** C7: every stored line item is the coercion of its raw item (price as a
    float, default 0; quantity as an int, default 1; product_id and title as
    text, default empty), and the outcome does not depend on the product
    collection: with any other products in the store the same order is
    stored. *)
Theorem create_order_line_items (db db' : option (store oid))
    (payload : CreateOrderRequest) (resp : OrderResponse) :
  create_order db payload = (db', Ok resp) ->
  exists st o,
    db = Some st /\
    persisted db' = Some o /\
    Forall2 coerced (payload_items payload) (items o) /\
    forall products' : list (gmap string (bson oid)),
      persisted
        (fst (create_order (Some {| product := products'; order := order st |})
                payload)) = Some o.
Proof.
  intros H. apply create_order_Ok in H as (st & o & -> & Hb & -> & _ & Hp).
  exists st, o. split; [reflexivity|]. split; [exact Hp|].
  split.
  - apply build_order_Ok in Hb as (s & its & _ & Hi & _ & _ & ->).
    simpl. apply make_items_coerced, Hi.
  - intros products'. unfold create_order. rewrite Hb. simpl.
    unfold persisted. simpl. rewrite last_snoc. reflexivity.
Qed.

(** [create_order] is [create_order_via] at the insert of
    [create_document]. *)
Lemma create_order_via_create_document (db : option (store oid))
    (payload : CreateOrderRequest) :
  create_order_via (fun st o => Ok (create_document st o)) db payload
  = create_order db payload.
Proof.
  unfold create_order_via, create_order. destruct db as [st|]; [|reflexivity].
  destruct (build_order payload) as [[o t]|e]; reflexivity.
Qed.

(** C4 (as amended): a request to create an order ends in one of two ways,
    whatever the store's insert does.  Either it succeeds: the store was
    configured, the order was built, the insert stored it, and the response
    carries the assigned identifier and the order's total.  Or it raises and
    the handler has written nothing: [StoreUnavailable] when the store is
    not configured, and otherwise a conversion error of a price or quantity
    ([TypeError], [ValueError], [OverflowError]), a validation error of the
    order record, or the exception the insert raised.  With the insert of
    [create_document], a success leaves the store with exactly the one order
    more. *)
Theorem create_order_outcomes
    (insert : store oid -> Order -> result (store oid * string))
    (db : option (store oid)) (payload : CreateOrderRequest) :
  ((exists st o st' i,
       db = Some st /\
       build_order payload = Ok (o, total o) /\
       insert st o = Ok (st', i) /\
       create_order_via insert db payload =
         (Some st', Ok {| response_order_id := i; response_total := total o |}))
   \/
   (exists e,
       create_order_via insert db payload = (db, Raise e) /\
       (db = None -> e = StoreUnavailable) /\
       (forall st, db = Some st ->
          coercion_error e \/ e = ValidationError \/
          exists o, build_order payload = Ok (o, total o) /\
                    insert st o = Raise e)))
  /\
  ((exists st o i,
       db = Some st /\
       create_order db payload =
         (Some {| product := product st; order := order st ++ [(i, o)] |},
          Ok {| response_order_id := str_oid i; response_total := total o |}))
   \/
   (exists e,
       create_order db payload = (db, Raise e) /\
       (db = None -> e = StoreUnavailable) /\
       (db <> None -> coercion_error e \/ e = ValidationError))).
Proof.
  split.
  - unfold create_order_via. destruct db as [st|].
    + destruct (build_order payload) as [[o t]|e] eqn:Hb.
      * pose proof Hb as Hb'.
        apply build_order_Ok in Hb' as (s & its & _ & _ & _ & _ & Ho).
        assert (Ht : t = total o) by (rewrite Ho; reflexivity).
        subst t. clear Ho.
        destruct (insert st o) as [[st' i]|e] eqn:Hi.
        -- left. exists st, o, st', i. auto.
        -- right. exists e. split; [reflexivity|]. split; [discriminate|].
           intros st0 [= <-]. right. right. exists o. auto.
      * right. exists e. split; [reflexivity|]. split; [discriminate|].
        intros st0 _. apply build_order_Raise in Hb as [Hb | Hb]; auto.
    + right. exists StoreUnavailable. split; [reflexivity|].
      split; [reflexivity | discriminate].
  - unfold create_order. destruct db as [st|].
    + destruct (build_order payload) as [[o t]|e] eqn:Hb.
      * left. exists st, o, (new_oid st). split; [reflexivity|]. simpl.
        apply build_order_Ok in Hb as (s & its & _ & _ & _ & _ & ->).
        reflexivity.
      * right. exists e. split; [reflexivity|]. split; [discriminate|].
        intros _. eapply build_order_Raise, Hb.
    + right. exists StoreUnavailable. split; [reflexivity|].
      split; [reflexivity | congruence].
Qed.

End OrderProperties.

(** ** Properties of the product queries *)

Section QueryProperties.

Context {oid : Type} {R : Runtime oid}.

Lemma parse_literal (q : string) :
  literal q = true -> parse_pattern q = Some (literal_atoms q).
Proof.
  induction q as [|c q IH]; simpl; [reflexivity|].
  intros H. apply andb_true_iff in H as [Hc Hq].
  destruct (Ascii.eqb c ".") eqn:Hdot.
  - apply Ascii.eqb_eq in Hdot. subst c. discriminate.
  - apply negb_true_iff in Hc. rewrite Hc, (IH Hq). reflexivity.
Qed.

Lemma match_here_literal (q s : string) :
  match_here (literal_atoms q) s = true <->
  exists suf, lower_str s = lower_str q +:+ suf.
Proof.
  revert s. induction q as [|c q IH]; intros s; simpl.
  - split; [eauto | reflexivity].
  - destruct s as [|x s]; simpl.
    + split; [discriminate | intros [suf [=]]].
    + rewrite andb_true_iff, IH, Ascii.eqb_eq. split.
      * intros [E [suf Hs]]. exists suf. rewrite E, Hs. reflexivity.
      * intros [suf [= E Hs]]. eauto.
Qed.

Lemma search_literal (q s : string) :
  search (literal_atoms q) s = true <-> ci_contains q s.
Proof.
  unfold ci_contains. induction s as [|x s IH].
  - simpl. rewrite orb_false_r, match_here_literal. split.
    + intros [suf Hs]. exists EmptyString, suf. exact Hs.
    + intros [[|a pre] [suf Hs]]; [eauto | discriminate].
  - cbn [search]. rewrite orb_true_iff, match_here_literal, IH. split.
    + intros [[suf Hs] | (pre & suf & Hs)].
      * exists EmptyString, suf. exact Hs.
      * exists (String (lower x) pre), suf. simpl. rewrite Hs. reflexivity.
    + intros [[|a pre] [suf Hs]]; [left; eauto|].
      right. injection Hs as _ Hs. eauto.
Qed.

(** A free-text clause on a pattern without metacharacters decides
    containment in the field. *)
Lemma regex_clause_literal (d : gmap string (bson oid)) (f q : string) :
  literal q = true ->
  exists b, clause_matches d (FieldRegex f q "i") = Some b /\
            (b = true <-> field_contains d f q).
Proof.
  intros Hq. simpl. unfold regex_compile. simpl.
  rewrite (parse_literal q Hq). simpl. unfold field_contains.
  destruct (text_field d f) as [s|].
  - eexists. split; [reflexivity|]. rewrite search_literal. split.
    + eauto.
    + intros (s' & [= <-] & H). exact H.
  - exists false. split; [reflexivity|]. split; [discriminate|].
    intros (s' & [=] & _).
Qed.

Lemma find_one_id (coll : list (gmap string (bson oid))) (o : oid)
    (doc : gmap string (bson oid)) :
  find_one coll o = Some doc -> doc !! "_id" = Some (BId o).
Proof.
  unfold find_one. intros H. apply find_some in H as [_ H].
  unfold has_id in H. destruct (doc !! "_id") as [[o'|v]|]; try discriminate.
  apply bool_decide_eq_true in H. congruence.
Qed.

(** A filter with a free-text pattern without metacharacters decides, for
    each document, the category condition and containment. *)
Lemma select_literal_text (category : option string) (q : string)
    (d : gmap string (bson oid)) :
  q <> EmptyString -> literal q = true ->
  exists b,
    select (filter_dict category (Some q)) d = Some b /\
    (b = true <-> text_selected category q d).
Proof.
  intros Hne Hq. unfold text_selected.
  destruct (regex_clause_literal d "title" q Hq) as (b1 & E1 & I1).
  destruct (regex_clause_literal d "description" q Hq) as (b2 & E2 & I2).
  destruct (regex_clause_literal d "category" q Hq) as (b3 & E3 & I3).
  assert (Ht : truthy (Some q) = true) by (destruct q; [congruence | reflexivity]).
  assert (Hor : clause_matches d
            (Or [FieldRegex "title" q "i"; FieldRegex "description" q "i";
                 FieldRegex "category" q "i"]) = Some (b1 || (b2 || (b3 || false)))).
  { cbn [clause_matches] in E1, E2, E3 |- *. rewrite E1, E2, E3. reflexivity. }
  unfold filter_dict. rewrite Ht. cbn [default from_option id].
  destruct (truthy category) eqn:Hc.
  - destruct category as [c|]; [|discriminate].
    cbn [default from_option id app select].
    rewrite Hor. cbn [clause_matches mbind option_bind].
    eexists. split; [reflexivity|].
    rewrite orb_false_r, andb_true_r, andb_true_iff, !orb_true_iff, I1, I2, I3.
    destruct (text_field d "category") as [s|].
    + rewrite String.eqb_eq. split.
      * intros [-> H]. split; [reflexivity | exact H].
      * intros [E H]. specialize (E eq_refl). injection E as ->.
        split; [reflexivity | exact H].
    + split; [intros [[=] _] | intros [E _]; specialize (E eq_refl); discriminate E].
  - cbn [app select]. rewrite Hor. cbn [mbind option_bind].
    eexists. split; [reflexivity|].
    rewrite orb_false_r, andb_true_r, !orb_true_iff, I1, I2, I3.
    split; [intros H; split; [discriminate | exact H] | intros [_ H]; exact H].
Qed.

(** The documents [find] returns for a filter that decides [P] are the
    documents of the collection that satisfy [P]. *)
Lemma find_decides (query : list clause) (P : gmap string (bson oid) -> Prop)
    (coll : list (gmap string (bson oid))) :
  (forall d, exists b, select query d = Some b /\ (b = true <-> P d)) ->
  exists ds, find query coll = Some ds /\
             forall d, d ∈ ds <-> d ∈ coll /\ P d.
Proof.
  intros Hsel. induction coll as [|x coll (ds & Hds & IH)]; simpl.
  - exists []. split; [reflexivity|]. intros d. rewrite elem_of_nil. tauto.
  - destruct (Hsel x) as (b & Hb & HP). rewrite Hb, Hds. simpl.
    eexists. split; [reflexivity|]. intros d.
    destruct b.
    + rewrite !elem_of_cons, IH. split.
      * intros [-> | [Hd HPd]]; [split; [auto | apply HP; reflexivity] | auto].
      * intros [[-> | Hd] HPd]; auto.
    + rewrite elem_of_cons, IH. split.
      * intros [Hd HPd]; auto.
      * intros [[-> | Hd] HPd]; [apply HP in HPd; discriminate | auto].
Qed.

(** C5 (as amended): for a free-text parameter [q] that is not empty and has
    no regular-expression metacharacter, the filter selects exactly the
    products whose title, description or category holds text that contains
    [q] case-insensitively; when a non-empty category is given as well, a
    product is selected exactly when its category is that text and the
    free-text condition holds.  ([q] is a pattern, so this is not stated for
    a [q] with metacharacters.) *)
Theorem find_literal_text (category : option string) (q : string)
    (coll : list (gmap string (bson oid))) :
  q <> EmptyString -> literal q = true ->
  exists ds,
    find (filter_dict category (Some q)) coll = Some ds /\
    forall d, d ∈ ds <-> d ∈ coll /\ text_selected category q d.
Proof.
  intros Hne Hq. apply find_decides.
  intros d. apply select_literal_text; assumption.
Qed.

(** C9: an empty [category], or an empty [q], is the same call as one without
    that parameter. *)
Theorem list_products_empty_string (db : option (store oid))
    (category q : option string) (limit : Z) :
  list_products db (Some EmptyString) q limit = list_products db None q limit /\
  list_products db category (Some EmptyString) limit
  = list_products db category None limit.
Proof. split; reflexivity. Qed.

(** C6 (as amended): with the store configured, [get_product] fails with
    [InvalidIdentifier] (400) exactly when the id does not parse, fails with
    [NotFound] (404) exactly when it parses and no record has that
    identifier, and otherwise returns the stored record with the field [_id]
    replaced by [id], the identifier as text.  Without a store it fails with
    [StoreUnavailable] (500), whatever the id. *)
Theorem get_product_outcomes (st : store oid) (product_id : string) :
  (get_product (Some st) product_id = Raise InvalidIdentifier <->
   ObjectId product_id = None) /\
  (get_product (Some st) product_id = Raise NotFound <->
   exists o, ObjectId product_id = Some o /\ find_one (product st) o = None) /\
  (forall o doc,
      ObjectId product_id = Some o -> find_one (product st) o = Some doc ->
      get_product (Some st) product_id
      = Ok (<["id" := BVal (JStr (str_oid o))]> (delete "_id" doc))) /\
  get_product None product_id = Raise StoreUnavailable.
Proof.
  assert (Hfound : forall o doc,
    ObjectId product_id = Some o -> find_one (product st) o = Some doc ->
    get_product (Some st) product_id
    = Ok (<["id" := BVal (JStr (str_oid o))]> (delete "_id" doc))).
  { intros o doc Ho Hd. unfold get_product. rewrite Ho, Hd.
    pose proof (find_one_id _ _ _ Hd) as Hid.
    destruct (Nat.eqb (size doc) 0) eqn:Hsz.
    - apply Nat.eqb_eq, map_size_empty_inv in Hsz. subst doc.
      rewrite lookup_empty in Hid. discriminate.
    - rewrite Hid. reflexivity. }
  repeat split.
  - destruct (ObjectId product_id) as [o|] eqn:Ho; [|reflexivity].
    destruct (find_one (product st) o) as [doc|] eqn:Hd.
    + rewrite (Hfound o doc eq_refl Hd). discriminate.
    + unfold get_product. rewrite Ho, Hd. discriminate.
  - intros Ho. unfold get_product. rewrite Ho. reflexivity.
  - destruct (ObjectId product_id) as [o|] eqn:Ho.
    + destruct (find_one (product st) o) as [doc|] eqn:Hd; [|eauto].
      rewrite (Hfound o doc eq_refl Hd). discriminate.
    + unfold get_product. rewrite Ho. discriminate.
  - intros (o & Ho & Hd). unfold get_product. rewrite Ho, Hd. reflexivity.
  - exact Hfound.
Qed.

End QueryProperties.

(** ** Further properties of order creation *)

Section MoreOrderProperties.

Context {oid : Type} {R : Runtime oid}.

Lemma make_items_image (xs : list (gmap string json)) (its : list OrderItem) :
  make_items xs = Ok its ->
  Forall2 (fun i li => image li = get i "image" JNull) xs its.
Proof.
  revert its. induction xs as [|i xs IH]; simpl; intros its Hm.
  - injection Hm as <-. constructor.
  - apply bind_Ok in Hm as (li & Hli & Hm).
    apply bind_Ok in Hm as (lis & Hlis & Hm).
    injection Hm as <-. constructor; [|auto].
    unfold make_item in Hli.
    apply bind_Ok in Hli as (p & _ & Hli).
    apply bind_Ok in Hli as (q & _ & Hli).
    injection Hli as <-. reflexivity.
Qed.

Lemma py_sum_first_error (good rest : list (gmap string json))
    (bad : gmap string json) (acc : float) (e : exn) :
  Forall (fun g => exists a, line_amount g = Ok a) good ->
  line_amount bad = Raise e ->
  py_sum acc (good ++ bad :: rest) = Raise e.
Proof.
  intros Hgood Hbad. revert acc.
  induction Hgood as [|g good [a Ha] _ IH]; intros acc; simpl.
  - rewrite Hbad. reflexivity.
  - rewrite Ha. simpl. apply IH.
Qed.

(** X1: with the store configured, a request with no items is accepted,
    whatever the customer fields: the order is stored with subtotal 0,
    shipping 6.99, taxes 0 and total 6.99, and the response carries 6.99. *)
Theorem create_order_empty_items (st : store oid) (name email address : string) :
  create_order (Some st)
    {| payload_items := []; payload_customer_name := name;
       payload_customer_email := email; payload_customer_address := address |}
  = (Some {| product := product st;
             order := order st ++
               [(new_oid st,
                 {| items := []; subtotal := 0; shipping := 6.99; taxes := 0;
                    total := 6.99; customer_name := name;
                    customer_email := email; customer_address := address |})] |},
     Ok {| response_order_id := str_oid (new_oid st); response_total := 6.99 |}).
Proof.
  unfold create_order, build_order, compute_subtotal, create_document. simpl.
  assert (Hs : compute_shipping 0 = 6.99%float) by (vm_compute; reflexivity).
  assert (Ht : compute_taxes 0 = 0%float) by (vm_compute; reflexivity).
  assert (Hr0 : py_round2 0 = 0%float) by (vm_compute; reflexivity).
  assert (Hr : py_round2 6.99 = 6.99%float) by (vm_compute; reflexivity).
  assert (Hc : compute_total 0 6.99 0 = 6.99%float) by (vm_compute; reflexivity).
  rewrite Hs, Ht, Hr0, Hr, Hc. reflexivity.
Qed.

(** X2: an accepted order stores the customer name, email and address exactly
    as submitted, one line item per raw item, and each item's image as the
    raw value under [image], null when the raw item has none. *)
Theorem create_order_copies_fields (db db' : option (store oid))
    (payload : CreateOrderRequest) (resp : OrderResponse) :
  create_order db payload = (db', Ok resp) ->
  exists o,
    persisted db' = Some o /\
    customer_name o = payload_customer_name payload /\
    customer_email o = payload_customer_email payload /\
    customer_address o = payload_customer_address payload /\
    Forall2 (fun i li => image li = get i "image" JNull)
      (payload_items payload) (items o).
Proof.
  intros Hc. apply create_order_Ok in Hc as (st & o & -> & Hb & -> & _ & Hp).
  apply build_order_Ok in Hb as (s & its & _ & Hi & _ & _ & ->).
  eexists. split; [exact Hp|]. simpl.
  repeat split. apply make_items_image, Hi.
Qed.

(** X3: when the price or quantity of an item cannot be converted, and the
    items before it can, the request raises that item's error and the store
    is left as it was, whatever follows the item. *)
Theorem create_order_first_bad_item (st : store oid) (payload : CreateOrderRequest)
    (good rest : list (gmap string json)) (bad : gmap string json) (e : exn) :
  payload_items payload = good ++ bad :: rest ->
  Forall (fun g => exists a, line_amount g = Ok a) good ->
  line_amount bad = Raise e ->
  create_order (Some st) payload = (Some st, Raise e).
Proof.
  intros Hitems Hgood Hbad.
  unfold create_order, build_order, compute_subtotal.
  rewrite Hitems, (py_sum_first_error good rest bad _ e Hgood Hbad).
  reflexivity.
Qed.

(** X4: order creation does not deduplicate.  A request that was accepted is
    accepted again on the resulting store, with the same total, and the same
    order document is stored a second time after the first. *)
Theorem create_order_twice (st : store oid) (db1 : option (store oid))
    (payload : CreateOrderRequest) (r1 : OrderResponse) :
  create_order (Some st) payload = (db1, Ok r1) ->
  exists st1 o r2,
    db1 = Some st1 /\
    create_order db1 payload
    = (Some {| product := product st;
               order := order st ++ [(new_oid st, o); (new_oid st1, o)] |},
       Ok r2) /\
    response_total r2 = response_total r1.
Proof.
  intros Hc. apply create_order_Ok in Hc as (st0 & o & [= <-] & Hb & -> & _ & _).
  eexists _, o, _. split; [reflexivity|].
  unfold create_order at 1. rewrite Hb. unfold create_document. simpl.
  rewrite <- app_assoc. simpl. split; reflexivity.
Qed.

End MoreOrderProperties.

(** ** Further properties of the product queries *)

Section MoreQueryProperties.

Context {oid : Type} {R : Runtime oid}.

Lemma find_narrows (q1 q2 : list clause) (coll ds : list (gmap string (bson oid))) :
  (forall (d : gmap string (bson oid)) b, select q1 d = Some b ->
               exists b', select q2 d = Some b' /\ (b = true -> b' = true)) ->
  find q1 coll = Some ds ->
  exists ds', find q2 coll = Some ds' /\ sublist ds ds'.
Proof.
  intros Hsel. revert ds. induction coll as [|x coll IH]; simpl; intros ds Hf.
  - injection Hf as <-. exists []. split; [reflexivity | constructor].
  - destruct (select q1 x) as [b|] eqn:Hb; [|discriminate]. simpl in Hf.
    destruct (find q1 coll) as [rest|] eqn:Hrest; [|discriminate]. simpl in Hf.
    injection Hf as <-.
    destruct (Hsel x b Hb) as (b' & Hb' & Himp).
    destruct (IH rest eq_refl) as (rest' & Hrest' & Hsub).
    rewrite Hb', Hrest'. simpl. eexists. split; [reflexivity|].
    destruct b.
    + rewrite (Himp eq_refl). constructor. exact Hsub.
    + destruct b'; [constructor|]; exact Hsub.
Qed.

(** X5: with a non-empty category and no free text, the filter selects
    exactly the products whose category is that text, letter case included. *)
Theorem find_category_only (c : string) (coll : list (gmap string (bson oid))) :
  c <> EmptyString ->
  exists ds,
    find (filter_dict (Some c) None) coll = Some ds /\
    forall d, d ∈ ds <-> d ∈ coll /\ text_field d "category" = Some c.
Proof.
  intros Hc. apply find_decides. intros d.
  unfold filter_dict. destruct c as [|a c]; [congruence|]. simpl.
  destruct (text_field d "category") as [s|].
  - eexists. split; [reflexivity|]. rewrite andb_true_r, String.eqb_eq.
    split; [intros ->; reflexivity | intros [= ->]; reflexivity].
  - exists false. split; [reflexivity|]. split; discriminate.
Qed.

(** X6: when neither a category nor a free text is given (absent or empty),
    the filter selects every product, in the store's order. *)
Theorem find_unfiltered (category q : option string)
    (coll : list (gmap string (bson oid))) :
  truthy category = false -> truthy q = false ->
  find (filter_dict category q) coll = Some coll.
Proof.
  intros Hc Hq. unfold filter_dict. rewrite Hc, Hq. simpl.
  induction coll as [|d coll IH]; simpl; [reflexivity|].
  rewrite IH. reflexivity.
Qed.

(** X7: giving a category can only narrow a search: the products found with
    a category and a free text are among those found with the free text
    alone, in the same order. *)
Theorem find_category_narrows (category q : option string)
    (coll ds : list (gmap string (bson oid))) :
  find (filter_dict category q) coll = Some ds ->
  exists ds', find (filter_dict None q) coll = Some ds' /\ sublist ds ds'.
Proof.
  apply find_narrows. intros d b. unfold filter_dict.
  destruct (truthy category); simpl; [|eauto].
  destruct (select _ d) as [b'|]; simpl; [|discriminate].
  intros [= <-]. exists b'. split; [reflexivity|].
  intros Hb. apply andb_true_iff in Hb as [_ Hb]. exact Hb.
Qed.

(** X8: a product with no text under title, description and category is
    found by no free-text search, whatever the pattern. *)
Theorem select_without_text (category : option string) (q : string)
    (r : list atom) (d : gmap string (bson oid)) :
  q <> EmptyString -> regex_compile q "i" = Some r ->
  text_field d "title" = None -> text_field d "description" = None ->
  text_field d "category" = None ->
  select (filter_dict category (Some q)) d = Some false.
Proof.
  intros Hq Hr Ht Hd Hc. unfold filter_dict.
  destruct q as [|a q]; [congruence|].
  destruct (truthy category); cbn -[regex_compile];
    rewrite Hr, ?Ht, ?Hd, ?Hc; reflexivity.
Qed.

(** X9: the listing fills the defaults of a stored product: a document with
    no price and no rating is shown with price 0 and rating 4.5, with
    category "Other" when it has none, in stock when it does not say, and
    with a null title when it has none. *)
Theorem product_view_defaults (d : gmap string (bson oid)) :
  d !! "price" = None -> d !! "rating" = None ->
  exists v,
    product_view d = Ok v /\
    view_price v = 0%float /\ view_rating v = 4.5%float /\
    (d !! "category" = None -> view_category v = BVal (JStr "Other")) /\
    (d !! "in_stock" = None -> view_in_stock v = true) /\
    (d !! "title" = None -> view_title v = BVal JNull).
Proof.
  intros Hp Hr. unfold product_view, get. rewrite Hp, Hr.
  cbn [default from_option id bson_float py_float].
  assert (H0 : float_of_int 0 = Ok 0%float) by (vm_compute; reflexivity).
  rewrite H0. cbn [mbind result_bind]. eexists. split; [reflexivity|].
  cbn [view_price view_rating view_category view_in_stock view_title].
  repeat split; intros ->; reflexivity.
Qed.

(** X10: the listing is all or nothing.  When the price or rating of a
    document cannot be converted, and the documents before it can, the whole
    listing raises that document's error. *)
Theorem product_views_first_bad (good rest : list (gmap string (bson oid)))
    (bad : gmap string (bson oid)) (e : exn) :
  Forall (fun g => exists v, product_view g = Ok v) good ->
  product_view bad = Raise e ->
  product_views (good ++ bad :: rest) = Raise e.
Proof.
  intros Hgood Hbad. induction Hgood as [|g good [v Hv] _ IH]; simpl.
  - rewrite Hbad. reflexivity.
  - rewrite Hv, IH. reflexivity.
Qed.

(** X11: a successful listing has one view per document, in order, each the
    view of its document. *)
Theorem product_views_pointwise (docs : list (gmap string (bson oid)))
    (vs : list (ProductView oid)) :
  product_views docs = Ok vs ->
  Forall2 (fun d v => product_view d = Ok v) docs vs.
Proof.
  revert vs. induction docs as [|d docs IH]; simpl; intros vs Hv.
  - injection Hv as <-. constructor.
  - apply bind_Ok in Hv as (v & Hd & Hv).
    apply bind_Ok in Hv as (vs' & Hvs & Hv).
    injection Hv as <-. constructor; auto.
Qed.

(** X12: the record [get_product] returns has no [_id], has under [id] the
    text of the identifier asked for, and has every other field of a stored
    product with that identifier, unchanged. *)
Theorem get_product_record (st : store oid) (product_id : string)
    (r : gmap string (bson oid)) :
  get_product (Some st) product_id = Ok r ->
  exists o doc,
    ObjectId product_id = Some o /\
    doc ∈ product st /\ doc !! "_id" = Some (BId o) /\
    r !! "_id" = None /\
    r !! "id" = Some (BVal (JStr (str_oid o))) /\
    forall k, k <> "id" -> k <> "_id" -> r !! k = doc !! k.
Proof.
  unfold get_product.
  destruct (ObjectId product_id) as [o|] eqn:Ho; [|discriminate].
  destruct (find_one (product st) o) as [doc|] eqn:Hd; [|discriminate].
  pose proof (find_one_id _ _ _ Hd) as Hid.
  destruct (Nat.eqb (size doc) 0); [discriminate|].
  rewrite Hid. intros [= <-]. exists o, doc.
  split; [reflexivity|]. split.
  { unfold find_one in Hd. apply find_some in Hd as [Hin _].
    apply list_elem_of_In. exact Hin. }
  split; [exact Hid|]. split.
  { rewrite lookup_insert_ne by discriminate. apply lookup_delete_eq. }
  split; [apply lookup_insert_eq|].
  intros k Hk Hk'. rewrite lookup_insert_ne by congruence.
  apply lookup_delete_ne. congruence.
Qed.

(** X13: a stored product can be fetched by the id the listing shows for it:
    when its [_id] is an identifier whose text parses back to it, its view
    carries that text as [id], and [get_product] on that text succeeds with
    a stored product of that identifier. *)
Theorem listed_product_is_fetchable (st : store oid) (d : gmap string (bson oid))
    (o : oid) (v : ProductView oid) :
  d ∈ product st -> d !! "_id" = Some (BId o) ->
  ObjectId (str_oid o) = Some o ->
  product_view d = Ok v ->
  view_id v = str_oid o /\
  exists doc,
    doc ∈ product st /\ doc !! "_id" = Some (BId o) /\
    get_product (Some st) (str_oid o)
    = Ok (<["id" := BVal (JStr (str_oid o))]> (delete "_id" doc)).
Proof.
  intros Hin Hid Hs Hv. split.
  - unfold product_view in Hv.
    apply bind_Ok in Hv as (p & _ & Hv). apply bind_Ok in Hv as (rt & _ & Hv).
    injection Hv as <-. simpl. unfold get. rewrite Hid. reflexivity.
  - destruct (find_one (product st) o) as [doc|] eqn:Hd.
    + pose proof (find_one_id _ _ _ Hd) as Hdoc. exists doc.
      split; [|split; [exact Hdoc|]].
      * unfold find_one in Hd. apply find_some in Hd as [Hd _].
        apply list_elem_of_In. exact Hd.
      * unfold get_product. rewrite Hs, Hd.
        destruct (Nat.eqb (size doc) 0) eqn:Hsz.
        -- apply Nat.eqb_eq, map_size_empty_inv in Hsz. subst doc.
           rewrite lookup_empty in Hdoc. discriminate.
        -- rewrite Hdoc. reflexivity.
    + exfalso. unfold find_one in Hd.
      apply list_elem_of_In in Hin.
      pose proof (find_none _ _ Hd d Hin) as Hn.
      unfold has_id in Hn. rewrite Hid in Hn.
      rewrite bool_decide_eq_false in Hn. congruence.
Qed.

End MoreQueryProperties.

(** ** Properties of seeding, diagnostics and rounding *)

Section SeedProperties.

Context {oid : Type}.

Lemma seed_loop_count
    (create_product : store oid -> gmap string json -> result (store oid * string))
    (ss : list (gmap string json)) (st st' : store oid) (k n : Z) :
  seed_loop create_product st k ss = (st', n) ->
  k <= n <= k + Z.of_nat (length ss) /\
  ((forall t s, exists r, create_product t s = Ok r) -> n = k + Z.of_nat (length ss)) /\
  ((forall t s, exists e, create_product t s = Raise e) -> n = k /\ st' = st).
Proof.
  revert st k. induction ss as [|s ss IH]; intros st k; simpl.
  - intros [= <- <-]. repeat split; lia.
  - destruct (create_product st s) as [[st1 i]|e] eqn:Hc; intros Hl;
      apply IH in Hl as (Hb & Hall & Hnone).
    + split; [lia|]. split.
      * intros Hok. specialize (Hall Hok). lia.
      * intros Hno. destruct (Hno st s) as [e He]. congruence.
    + split; [lia|]. split.
      * intros Hok. destruct (Hok st s) as [r Hr]. congruence.
      * exact Hnone.
Qed.

Lemma seed_loop_accepts
    (create_product : store oid -> gmap string json -> result (store oid * string))
    (accepts : gmap string json -> bool)
    (ss : list (gmap string json)) (st st' : store oid) (k n : Z) :
  (forall t s, (exists r, create_product t s = Ok r) <-> accepts s = true) ->
  seed_loop create_product st k ss = (st', n) ->
  n = k + Z.of_nat (length (List.filter accepts ss)).
Proof.
  intros Hacc. revert st k. induction ss as [|s ss IH]; intros st k; simpl.
  - intros [= <- <-]. lia.
  - destruct (create_product st s) as [[st1 i]|e] eqn:Hc; intros Hl;
      apply IH in Hl.
    + assert (Hs : accepts s = true) by (apply (Hacc st s); eauto).
      rewrite Hs. simpl. lia.
    + destruct (accepts s) eqn:Hs; [|exact Hl].
      apply (Hacc st s) in Hs as [r Hr]. congruence.
Qed.

(** X14: with the store configured, [seed_products] never raises: an insert
    that raises is passed over and the loop goes on with the next sample.
    The count returned is between 0 and 4; it is 4 when no insert raises,
    and when every insert raises it is 0 and the store is as it was.  When
    whether an insert raises depends on the sample only, the count is the
    number of samples whose insert does not raise, wherever they stand in
    the list. *)
Theorem seed_products_count
    (create_product : store oid -> gmap string json -> result (store oid * string))
    (st : store oid) :
  exists st' n,
    seed_products create_product (Some st) = (Some st', Ok n) /\
    0 <= n <= 4 /\
    ((forall t s, exists r, create_product t s = Ok r) -> n = 4) /\
    ((forall t s, exists e, create_product t s = Raise e) -> n = 0 /\ st' = st) /\
    (forall accepts : gmap string json -> bool,
       (forall t s, (exists r, create_product t s = Ok r) <-> accepts s = true) ->
       n = Z.of_nat (length (List.filter accepts samples))).
Proof.
  unfold seed_products.
  destruct (seed_loop create_product st 0 samples) as [st' n] eqn:Hl.
  exists st', n. split; [reflexivity|].
  pose proof (seed_loop_count _ _ _ _ _ _ Hl) as (Hb & Hall & Hnone).
  split; [exact Hb|]. split; [exact Hall|]. split; [exact Hnone|].
  intros accepts Hacc.
  apply (seed_loop_accepts _ accepts _ _ _ _ _ Hacc) in Hl. lia.
Qed.

End SeedProperties.

Section InsertProperties.

Context {oid : Type} {R : Runtime oid}.

Lemma seed_loop_insert (ss : list (gmap string json)) (st st' : store oid)
    (k n : Z) :
  seed_loop insert_product st k ss = (st', n) ->
  n = k + Z.of_nat (length ss) /\
  order st' = order st /\
  exists new,
    product st' = product st ++ new /\
    Forall2 (fun s d => exists i, d = <["_id" := BId i]> (BVal <$> s)) ss new.
Proof.
  revert st k. induction ss as [|s ss IH]; intros st k; simpl.
  - intros [= <- <-]. split; [lia|]. split; [reflexivity|].
    exists []. split; [symmetry; apply app_nil_r | constructor].
  - intros Hl. apply IH in Hl as (Hn & Ho & new & Hp & Hnew). simpl in *.
    split; [lia|]. split; [exact Ho|].
    eexists (_ :: new). split.
    + rewrite Hp, <- app_assoc. reflexivity.
    + constructor; [eauto | exact Hnew].
Qed.

(** X15: seeding is not idempotent.  On every configured store, with the
    store's insert, [seed_products] returns 4 and appends four documents to
    the products, the four samples in order, each with an [_id]; the
    products already stored, and the orders, are untouched.  So each call
    adds four more products. *)
Theorem seed_products_appends (st : store oid) :
  exists st' new,
    seed_products insert_product (Some st) = (Some st', Ok 4) /\
    order st' = order st /\
    product st' = product st ++ new /\
    Forall2 (fun s d => exists i, d = <["_id" := BId i]> (BVal <$> s)) samples new.
Proof.
  unfold seed_products.
  destruct (seed_loop insert_product st 0 samples) as [st' n] eqn:Hl.
  apply seed_loop_insert in Hl as (-> & Ho & new & Hp & Hnew).
  exists st', new. repeat split; assumption.
Qed.

End InsertProperties.

(** X16: the diagnostic lists at most ten collections: the first ten names
    the store lists, and none when there is no store or the listing
    raises. *)
Theorem test_database_collections (db : option Database)
    (url name : option string) :
  exists names,
    test_database db url name !! "collections" = Some (JArr (JStr <$> names)) /\
    (length names <= 10)%nat /\
    names = match db with
            | Some h =>
                match list_collection_names h with
                | inr collections => take 10 collections
                | inl _ => []
                end
            | None => []
            end.
Proof.
  eexists. split; [|split; [|reflexivity]].
  - unfold test_database. destruct db as [[nm [e|cs]]|]; reflexivity.
  - destruct db as [[nm [e|cs]]|]; simpl; try lia.
    rewrite length_take. lia.
Qed.

(** X17: in the diagnostic, [database_url] and [database_name] tell only
    whether the environment variables are set and not empty, whatever the
    store is and whatever its name; [connection_status] is "Connected"
    exactly when there is a store. *)
Theorem test_database_environment (db : option Database)
    (url name : option string) :
  test_database db url name !! "database_url"
  = Some (JStr (if truthy url then "✅ Set" else "❌ Not Set")) /\
  test_database db url name !! "database_name"
  = Some (JStr (if truthy name then "✅ Set" else "❌ Not Set")) /\
  (test_database db url name !! "connection_status" = Some (JStr "Connected")
   <-> db <> None).
Proof.
  unfold test_database.
  destruct db as [[nm [e|cs]]|]; (split; [reflexivity|]);
    (split; [reflexivity|]); split; try discriminate; try reflexivity;
    try congruence.
Qed.

(** The quotient rounded half to even is a nearest integer, and in a tie
    the even one. *)
Lemma div_half_even_nearest (a b : Z) :
  0 < b ->
  Z.abs (2 * (a - b * div_half_even a b)) <= b /\
  (Z.abs (2 * (a - b * div_half_even a b)) = b ->
   Z.even (div_half_even a b) = true).
Proof.
  intros Hb. unfold div_half_even.
  pose proof (Z.div_mod a b ltac:(lia)) as Hdm.
  pose proof (Z.mod_pos_bound a b Hb) as Hr.
  destruct (Z.compare_spec (2 * (a mod b)) b) as [Hcmp|Hcmp|Hcmp].
  - destruct (Z.even (a / b)) eqn:He.
    + split; [lia | intros _; exact He].
    + split; [lia|]. intros _.
      rewrite Z.add_1_r, Z.even_succ, <- Z.negb_even, He. reflexivity.
  - split; [lia | intros Ht; exfalso; lia].
  - split; [lia | intros Ht; exfalso; lia].
Qed.

(** X18: [round(x, 2)], as [create_order] applies it to taxes, total and
    subtotal, goes through the nearest number of cents.  For a finite
    non-zero float of magnitude [m * 2^e], the cents are exactly
    [m * 100 * 2^e] when [e >= 0]; when [e < 0] they are a nearest integer
    to [m * 100 / 2^(-e)], the even one in a tie; and the result is the
    float quotient of the cents by 100 with the sign of [x], or a zero of
    that sign when the cents are 0. *)
Theorem py_round2_nearest_cent (x : float) (s : bool) (m : positive) (e : Z) :
  Prim2SF x = S754_finite s m e ->
  (0 <= e -> cents_of m e = Z.pos m * 100 * 2 ^ e) /\
  (e < 0 ->
   Z.abs (2 * (Z.pos m * 100 - 2 ^ (- e) * cents_of m e)) <= 2 ^ (- e) /\
   (Z.abs (2 * (Z.pos m * 100 - 2 ^ (- e) * cents_of m e)) = 2 ^ (- e) ->
    Z.even (cents_of m e) = true)) /\
  py_round2 x =
    match cents_of m e with
    | Z.pos n =>
        SF2Prim (SFdiv prec emax (S754_finite s n 0) (S754_finite false 100 0))
    | _ => SF2Prim (S754_zero s)
    end.
Proof.
  intros Hx. split; [|split].
  - intros He. unfold cents_of.
    destruct (0 <=? e) eqn:Hle; [reflexivity|]. apply Z.leb_gt in Hle. lia.
  - intros He. unfold cents_of.
    destruct (0 <=? e) eqn:Hle; [apply Z.leb_le in Hle; lia|].
    apply div_half_even_nearest. apply Z.pow_pos_nonneg; lia.
  - unfold py_round2. rewrite Hx. reflexivity.
Qed.

(** ** Closed examples *)

(** The three orders the specification works through. *)
Example create_order_two_at_30 :
  create_order (Some empty_store) (order_for [two_at_30])
  = (store_with order_two_at_30, Ok (response_with 64.2)).
Proof. vm_compute. reflexivity. Qed.

Example create_order_one_at_10 :
  create_order (Some empty_store) (order_for [one_at_10])
  = (store_with order_one_at_10, Ok (response_with 17.69)).
Proof. vm_compute. reflexivity. Qed.

Example create_order_no_items :
  create_order (Some empty_store) (order_for [])
  = (store_with order_empty, Ok (response_with 6.99)).
Proof. vm_compute. reflexivity. Qed.

(** Queries over a store that holds the chair. *)
Definition chair_store : store string := {| product := [chair]; order := [] |}.

Example find_chair_by_text :
  find (filter_dict None (Some "CHAIR")) [chair] = Some [chair].
Proof. vm_compute. reflexivity. Qed.

Example find_chair_other_category :
  find (filter_dict (Some "Electronics") (Some "chair")) [chair] = Some [].
Proof. vm_compute. reflexivity. Qed.

Example get_product_chair :
  get_product (Some chair_store) "65f0c0ffee0000000000000a"
  = Ok (<["id" := BVal (JStr "65f0c0ffee0000000000000a")]> (delete "_id" chair)).
Proof. vm_compute. reflexivity. Qed.

Example get_product_absent :
  get_product (Some chair_store) "65f0c0ffee0000000000000b" = Raise NotFound.
Proof. vm_compute. reflexivity. Qed.

Example get_product_malformed :
  get_product (Some chair_store) "not-an-id" = Raise InvalidIdentifier.
Proof. vm_compute. reflexivity. Qed.

(** C1, counterexample: for the single item [{"price": 0.625}] the raw
    subtotal is 0.625, the shipping 6.99 and the taxes 0.04; the order is
    stored with subtotal 0.62 and total 7.66, while
    [round(0.625, 2) + 6.99 + 0.04], which is also the sum of the stored
    subtotal, shipping and taxes, is 7.65. *)
Lemma create_order_total_off_by_a_cent :
  create_order (Some empty_store) (order_for [one_at_0625])
  = (store_with order_one_at_0625, Ok (response_with 7.66)) /\
  compute_subtotal (order_for [one_at_0625]) = Ok 0.625%float /\
  (py_round2 0.625 + 6.99 + 0.04)%float = 7.65%float /\
  (subtotal order_one_at_0625 + shipping order_one_at_0625
   + taxes order_one_at_0625)%float = 7.65%float /\
  total order_one_at_0625 <> 7.65%float.
Proof.
  repeat split; try (vm_compute; reflexivity).
  apply float_neqb; reflexivity.
Qed.

(** C4, counterexample: with the store configured, the request with the
    single item [{"price": null}] raises [TypeError], which is not
    [StoreUnavailable], and is not a success. *)
Lemma create_order_null_price_raises :
  create_order (Some empty_store) (order_for [null_price])
  = (Some empty_store, Raise TypeError) /\
  TypeError <> StoreUnavailable.
Proof. split; [vm_compute; reflexivity | discriminate]. Qed.

(** C5, counterexample: the free-text parameter [.] selects the chair, and
    none of its title, description and category contains a full stop. *)
Lemma find_dot_is_a_pattern :
  find (filter_dict None (Some ".")) [chair] = Some [chair] /\
  ~ text_selected None "." chair.
Proof.
  split; [vm_compute; reflexivity|].
  intros [_ [H | [H | H]]]; destruct H as (s & Hs & Hc);
    apply (search_literal "." s) in Hc;
    vm_compute in Hs; injection Hs as <-; vm_compute in Hc; discriminate.
Qed.

(** C6, counterexample: without a store, an id that does not parse fails with
    [StoreUnavailable] (500), not with [InvalidIdentifier] (400). *)
Lemma get_product_unparsable_without_store :
  ObjectId "not-an-id" = (None : option string) /\
  get_product (oid := string) None "not-an-id" = Raise StoreUnavailable /\
  StoreUnavailable <> InvalidIdentifier.
Proof. repeat split; [discriminate]. Qed.

(** *** The theorems at the examples *)

(** [create_order_total_rounds_sum] at the request for one item at 0.625. *)
Lemma create_order_total_rounds_sum_witness :
  exists s o,
    compute_subtotal (order_for [one_at_0625]) = Ok s /\
    persisted (store_with order_one_at_0625) = Some o /\
    subtotal o = py_round2 s /\
    shipping o = compute_shipping s /\
    taxes o = compute_taxes s /\
    total o = py_round2 (s + shipping o + taxes o)%float /\
    response_total (response_with 7.66) = py_round2 (s + shipping o + taxes o)%float.
Proof.
  apply (create_order_total_rounds_sum (Some empty_store)).
  vm_compute. reflexivity.
Defined.

(** [create_order_shipping] at the request for two items at 30, whose
    subtotal is 60 and which is stored with free shipping. *)
Lemma create_order_shipping_witness :
  exists s o,
    compute_subtotal (order_for [two_at_30]) = Ok s /\
    persisted (store_with order_two_at_30) = Some o /\
    (shipping o = 0%float <-> (50 <=? s)%float = true) /\
    ((50 <=? s)%float = false -> shipping o = 6.99%float).
Proof.
  apply (create_order_shipping (Some empty_store) _ _ (response_with 64.2)).
  vm_compute. reflexivity.
Defined.

(** [create_order_taxes] at the request for one item at 10. *)
Lemma create_order_taxes_witness :
  exists s o,
    compute_subtotal (order_for [one_at_10]) = Ok s /\
    persisted (store_with order_one_at_10) = Some o /\
    taxes o = py_round2 (s * 0.07)%float.
Proof.
  apply (create_order_taxes (Some empty_store) _ _ (response_with 17.69)).
  vm_compute. reflexivity.
Defined.

(** [create_order_response_total] at the request with no items. *)
Lemma create_order_response_total_witness :
  exists o,
    persisted (store_with order_empty) = Some o /\
    response_total (response_with 6.99) = total o.
Proof.
  apply (create_order_response_total (Some empty_store) _ (order_for [])).
  vm_compute. reflexivity.
Defined.

(** [create_order_item_bounds] at the request for two items at 30. *)
Lemma create_order_item_bounds_witness :
  exists o,
    persisted (store_with order_two_at_30) = Some o /\
    Forall (fun li => (0 <=? price li)%float = true /\ 1 <= quantity li) (items o).
Proof.
  apply (create_order_item_bounds (Some empty_store) _
           (order_for [two_at_30]) (response_with 64.2)).
  vm_compute. reflexivity.
Defined.

(** [create_order_line_items] at the request for one item at 0.625, which
    names no quantity, product_id or title. *)
Lemma create_order_line_items_witness :
  exists st o,
    Some empty_store = Some st /\
    persisted (store_with order_one_at_0625) = Some o /\
    Forall2 coerced (payload_items (order_for [one_at_0625])) (items o) /\
    forall products' : list (gmap string (bson string)),
      persisted
        (fst (create_order (Some {| product := products'; order := order st |})
                (order_for [one_at_0625]))) = Some o.
Proof.
  apply (create_order_line_items (Some empty_store) _ _ (response_with 7.66)).
  vm_compute. reflexivity.
Defined.

(** [find_literal_text] at the category [Home] and the text [chair]. *)
Lemma find_literal_text_witness :
  exists ds,
    find (filter_dict (Some "Home") (Some "chair")) [chair] = Some ds /\
    forall d, d ∈ ds <-> d ∈ [chair] /\ text_selected (Some "Home") "chair" d.
Proof.
  apply (find_literal_text (Some "Home") "chair" [chair]);
    [discriminate | reflexivity].
Defined.

(** *** The further theorems at examples *)

(** A stored product that names a title only, and one whose price is null. *)
Definition untitled_price_only : gmap string (bson string) :=
  <["price" := BVal (JFloat 5)]> ∅.

Definition title_only : gmap string (bson string) :=
  <["title" := BVal (JStr "Mug")]> ∅.

Definition null_price_product : gmap string (bson string) :=
  <["title" := BVal (JStr "Lamp")]> (<["price" := BVal JNull]> ∅).

(** [create_order_copies_fields] at the request for two items at 30. *)
Lemma create_order_copies_fields_witness :
  exists o,
    persisted (store_with order_two_at_30) = Some o /\
    customer_name o = "Ada" /\
    customer_email o = "ada@example.org" /\
    customer_address o = "1 Main Street" /\
    Forall2 (fun i li => image li = get i "image" JNull) [two_at_30] (items o).
Proof.
  apply (create_order_copies_fields (Some empty_store) _
           (order_for [two_at_30]) (response_with 64.2)).
  vm_compute. reflexivity.
Defined.

(** [create_order_first_bad_item] at a null price between two good items. *)
Lemma create_order_first_bad_item_witness :
  create_order (Some empty_store) (order_for [one_at_10; null_price; two_at_30])
  = (Some empty_store, Raise TypeError).
Proof.
  apply (create_order_first_bad_item empty_store
           (order_for [one_at_10; null_price; two_at_30])
           [one_at_10] [two_at_30] null_price TypeError).
  - reflexivity.
  - repeat constructor. exists 10%float. vm_compute. reflexivity.
  - vm_compute. reflexivity.
Defined.

(** [create_order_twice] at the request for one item at 10. *)
Lemma create_order_twice_witness :
  exists st1 o r2,
    store_with order_one_at_10 = Some st1 /\
    create_order (store_with order_one_at_10) (order_for [one_at_10])
    = (Some {| product := product empty_store;
               order := order empty_store
                        ++ [(new_oid empty_store, o); (new_oid st1, o)] |},
       Ok r2) /\
    response_total r2 = response_total (response_with 17.69).
Proof.
  apply (create_order_twice empty_store _ (order_for [one_at_10])).
  vm_compute. reflexivity.
Defined.

(** [find_category_only] at the category [Home]. *)
Lemma find_category_only_witness :
  exists ds,
    find (filter_dict (Some "Home") None) [chair; title_only] = Some ds /\
    forall d, d ∈ ds <->
              d ∈ [chair; title_only] /\ text_field d "category" = Some "Home".
Proof.
  apply (find_category_only "Home" [chair; title_only]). discriminate.
Defined.

(** [find_unfiltered] at an empty category and no free text. *)
Lemma find_unfiltered_witness :
  find (filter_dict (Some EmptyString) None) [chair; title_only]
  = Some [chair; title_only].
Proof.
  apply (find_unfiltered (Some EmptyString) None [chair; title_only]);
    reflexivity.
Defined.

(** [find_category_narrows] at the category [Home] and the text [chair]. *)
Lemma find_category_narrows_witness :
  exists ds',
    find (filter_dict None (Some "chair")) [chair; title_only] = Some ds' /\
    sublist [chair] ds'.
Proof.
  apply (find_category_narrows (Some "Home") (Some "chair")
           [chair; title_only] [chair]).
  vm_compute. reflexivity.
Defined.

(** [select_without_text] at a product that names a price only. *)
Lemma select_without_text_witness :
  select (filter_dict None (Some ".")) untitled_price_only = Some false.
Proof.
  apply (select_without_text None "." [Dot] untitled_price_only);
    [discriminate | reflexivity..].
Defined.

(** [product_view_defaults] at a product that names a title only. *)
Lemma product_view_defaults_witness :
  exists v,
    product_view title_only = Ok v /\
    view_price v = 0%float /\ view_rating v = 4.5%float /\
    (title_only !! "category" = None -> view_category v = BVal (JStr "Other")) /\
    (title_only !! "in_stock" = None -> view_in_stock v = true) /\
    (title_only !! "title" = None -> view_title v = BVal JNull).
Proof.
  apply (product_view_defaults title_only); reflexivity.
Defined.

(** [product_views_first_bad] at a product with a null price after the
    chair. *)
Lemma product_views_first_bad_witness :
  product_views ([chair] ++ null_price_product :: [title_only]) = Raise TypeError.
Proof.
  apply (product_views_first_bad [chair] [title_only] null_price_product TypeError).
  - repeat constructor. eexists. vm_compute. reflexivity.
  - vm_compute. reflexivity.
Defined.

(** [product_views_pointwise] at the chair and the product with a title
    only. *)
Lemma product_views_pointwise_witness :
  exists vs,
    product_views [chair; title_only] = Ok vs /\
    Forall2 (fun d v => product_view d = Ok v) [chair; title_only] vs.
Proof.
  eexists. split; [vm_compute; reflexivity|].
  apply (product_views_pointwise [chair; title_only]).
  vm_compute. reflexivity.
Defined.

(** [get_product_record] at the chair. *)
Lemma get_product_record_witness :
  exists o doc,
    ObjectId "65f0c0ffee0000000000000a" = Some o /\
    doc ∈ product chair_store /\ doc !! "_id" = Some (BId o) /\
    (<["id" := BVal (JStr "65f0c0ffee0000000000000a")]> (delete "_id" chair)
       : gmap string (bson string)) !! "_id" = None /\
    (<["id" := BVal (JStr "65f0c0ffee0000000000000a")]> (delete "_id" chair)
       : gmap string (bson string)) !! "id" = Some (BVal (JStr (str_oid o))) /\
    forall k, k <> "id" -> k <> "_id" ->
      (<["id" := BVal (JStr "65f0c0ffee0000000000000a")]> (delete "_id" chair)
         : gmap string (bson string)) !! k = doc !! k.
Proof.
  apply (get_product_record chair_store "65f0c0ffee0000000000000a").
  vm_compute. reflexivity.
Defined.

(** [listed_product_is_fetchable] at the chair. *)
Lemma listed_product_is_fetchable_witness :
  exists v,
    product_view chair = Ok v /\
    view_id v = str_oid "65f0c0ffee0000000000000a" /\
    exists doc,
      doc ∈ product chair_store /\
      doc !! "_id" = Some (BId "65f0c0ffee0000000000000a") /\
      get_product (Some chair_store) (str_oid "65f0c0ffee0000000000000a")
      = Ok (<["id" := BVal (JStr (str_oid "65f0c0ffee0000000000000a"))]>
              (delete "_id" doc)).
Proof.
  eexists. split; [vm_compute; reflexivity|].
  apply (listed_product_is_fetchable chair_store chair
           "65f0c0ffee0000000000000a").
  - apply list_elem_of_here.
  - reflexivity.
  - reflexivity.
  - vm_compute. reflexivity.
Defined.

(** [py_round2_nearest_cent] at 0.625, which is [5629499534213120 * 2^(-53)]:
    62.5 cents round to 62, and [round(0.625, 2)] is 0.62. *)
Lemma py_round2_nearest_cent_witness :
  cents_of 5629499534213120 (-53) = 62 /\
  py_round2 0.625 = 0.62%float /\
  (0 <= -53 -> cents_of 5629499534213120 (-53) = 5629499534213120 * 100 * 2 ^ (-53)) /\
  (-53 < 0 ->
   Z.abs (2 * (5629499534213120 * 100 - 2 ^ (- -53) * cents_of 5629499534213120 (-53)))
   <= 2 ^ (- -53) /\
   (Z.abs (2 * (5629499534213120 * 100 - 2 ^ (- -53) * cents_of 5629499534213120 (-53)))
    = 2 ^ (- -53) ->
    Z.even (cents_of 5629499534213120 (-53)) = true)) /\
  py_round2 0.625 =
    match cents_of 5629499534213120 (-53) with
    | Z.pos n =>
        SF2Prim (SFdiv prec emax (S754_finite false n 0) (S754_finite false 100 0))
    | _ => SF2Prim (S754_zero false)
    end.
Proof.
  split; [vm_compute; reflexivity|]. split; [vm_compute; reflexivity|].
  apply (py_round2_nearest_cent 0.625 false 5629499534213120 (-53)).
  vm_compute. reflexivity.
Defined.

(** An insert that raises on the products of the category Electronics, the
    first and the last of the samples, and stores the others. *)
Definition not_electronics (s : gmap string json) : bool :=
  match s !! "category" with
  | Some (JStr c) => negb (String.eqb c "Electronics")
  | _ => true
  end.

Definition picky_insert (st : store string) (s : gmap string json)
  : result (store string * string) :=
  if not_electronics s then insert_product st s else Raise ValueError.

(** Seeding with that insert: the first insert raises, the loop goes on, and
    the chair and the bottle are stored. *)
Example seed_products_skips_failures :
  exists st',
    seed_products picky_insert (Some empty_store) = (Some st', Ok 2) /\
    (fun d => d !! "title") <$> product st'
    = [Some (BVal (JStr "Ergonomic Office Chair"));
       Some (BVal (JStr "Stainless Steel Water Bottle 1L"))].
Proof. eexists. split; vm_compute; reflexivity. Qed.

(** [seed_products_count] at that insert: two of the four samples are
    stored. *)
Lemma seed_products_count_witness :
  snd (seed_products picky_insert (Some empty_store)) = Ok 2 /\
  exists st' n,
    seed_products picky_insert (Some empty_store) = (Some st', Ok n) /\
    0 <= n <= 4 /\
    ((forall t s, exists r, picky_insert t s = Ok r) -> n = 4) /\
    ((forall t s, exists e, picky_insert t s = Raise e) -> n = 0 /\ st' = empty_store) /\
    (forall accepts : gmap string json -> bool,
       (forall t s, (exists r, picky_insert t s = Ok r) <-> accepts s = true) ->
       n = Z.of_nat (length (List.filter accepts samples))).
Proof.
  split; [vm_compute; reflexivity|].
  apply (seed_products_count picky_insert empty_store).
Defined.
